(** * The AI node SDK adapters of n8n (packages/@n8n/ai-node-sdk)

    A shallow embedding of the SDK message types, the chat-history adapter,
    the chat-model adapter, the two factories and the tool-argument parser,
    followed by the properties stated about them.

    Conventions of the embedding:
    - a JavaScript value of type [unknown] that ends up in [JSON.stringify]
      is a [JSON.value]: a value JSON can hold, so never [undefined];
      numbers are integers of magnitude below 10^21, which JavaScript
      prints digit by digit;
    - a promise that rejects, or a function that throws, is [Throw e];
      side effects made before the throw stay in the state ([Eff]);
    - an optional field [f?: T] is an [option T], [None] being undefined. *)

From Stdlib Require Import ZArith List Ascii String.
From stdpp Require Import base option list strings pretty gmap.
Import ListNotations.
Open Scope string_scope.
Set Warnings "-register-all".

(** ** JSON values and [JSON.stringify] *)

Module JSON.

Inductive value : Type :=
| Null
| Bool (b : bool)
| Num (n : Z)
| Str (s : string)
| Arr (items : list value)
| Obj (fields : list (string * value)).

Definition hex_digit (n : N) : ascii :=
  match n with
  | 0%N => "0"%char | 1%N => "1"%char | 2%N => "2"%char | 3%N => "3"%char
  | 4%N => "4"%char | 5%N => "5"%char | 6%N => "6"%char | 7%N => "7"%char
  | 8%N => "8"%char | 9%N => "9"%char | 10%N => "a"%char | 11%N => "b"%char
  | 12%N => "c"%char | 13%N => "d"%char | 14%N => "e"%char | _ => "f"%char
  end.

Definition backslash : ascii := Ascii.ascii_of_nat 92.
Definition dquote : ascii := Ascii.ascii_of_nat 34.

(** One character of QuoteJSONString (ECMA-262): the quote and the backslash
    are escaped, the control characters below 0x20 get their short escape or
    a four-digit unicode escape. *)
Definition escape_char (c : ascii) : string :=
  let n := Ascii.N_of_ascii c in
  if (n =? 34)%N then String backslash (String dquote EmptyString)
  else if (n =? 92)%N then String backslash (String backslash EmptyString)
  else if (n =? 8)%N then String backslash "b"
  else if (n =? 9)%N then String backslash "t"
  else if (n =? 10)%N then String backslash "n"
  else if (n =? 12)%N then String backslash "f"
  else if (n =? 13)%N then String backslash "r"
  else if (n <? 32)%N then
    String backslash
      (String "u" (String "0" (String "0"
        (String (hex_digit (n / 16)) (String (hex_digit (n mod 16)) EmptyString)))))
  else String c EmptyString.

Fixpoint escape (s : string) : string :=
  match s with
  | EmptyString => EmptyString
  | String c rest => escape_char c ++ escape rest
  end.

Definition quote (s : string) : string :=
  String dquote (escape s ++ String dquote EmptyString).

Fixpoint join (sep : string) (parts : list string) : string :=
  match parts with
  | [] => EmptyString
  | [p] => p
  | p :: rest => p ++ sep ++ join sep rest
  end.

(** [JSON.stringify(v)] without indentation, for the values above: a
    [Num] stands for an integer of magnitude below 10^21 (a larger number
    is printed by JavaScript in exponent form), the fields of an [Obj] are
    listed in enumeration order. *)
Fixpoint stringify (v : value) : string :=
  match v with
  | Null => "null"
  | Bool true => "true"
  | Bool false => "false"
  | Num n => pretty n
  | Str s => quote s
  | Arr items => "[" ++ join "," (List.map stringify items) ++ "]"
  | Obj fields =>
      "{" ++ join ","
        (List.map (fun kv => match kv with (k, x) => quote k ++ ":" ++ stringify x end)
           fields) ++ "}"
  end.

(** An object literal whose undefined fields are left out by [stringify]. *)
Definition field (k : string) (v : option value) : list (string * value) :=
  match v with
  | Some x => [(k, x)]
  | None => []
  end.

End JSON.

(** ** Errors and effects *)

Record Error := JsError { message : string }.

Inductive Exc (A : Type) : Type :=
| Return (a : A)
| Throw (e : Error).
Arguments Return {A} a.
Arguments Throw {A} e.

(** A computation over a mutable state [S]: the state it leaves is kept even
    when it throws. *)
Definition Eff (S A : Type) : Type := S -> S * Exc A.

Definition ret {S A} (a : A) : Eff S A := fun s => (s, Return a).

Definition bind {S A B} (m : Eff S A) (k : A -> Eff S B) : Eff S B :=
  fun s =>
    match m s with
    | (s', Return a) => k a s'
    | (s', Throw e) => (s', Throw e)
    end.

Notation "x <- m ;; k" := (bind m (fun x => k))
  (at level 100, m at next level, right associativity).

(** ** types/messages.ts *)

Inductive MessageRole := system | user | assistant | tool.

Inductive FileData :=
| DataString (s : string)
| DataBytes (bytes : list Z).

Inductive ContentBlock : Type :=
| TextContent (text : string) (metadata : option JSON.value)
| ReasoningContent (text : string) (metadata : option JSON.value)
| FileContent (mediaType : string) (data : FileData) (metadata : option JSON.value)
| ToolCallContent (toolCallId toolName input : string) (metadata : option JSON.value)
| ToolResultContent (toolCallId : string) (result : JSON.value)
    (isError : option bool) (metadata : option JSON.value).

Record Message := mkMessage {
  role : MessageRole;
  content : ContentBlock;
  name : option string
}.

Definition textMessage (role : MessageRole) (text : string) : Message :=
  {| role := role; content := TextContent text None; name := None |}.

(** [isError] defaults to [false] when the caller leaves it out. *)
Definition toolResultMessage (toolCallId : string) (result : JSON.value)
    (isError : option bool) : Message :=
  {| role := tool;
     content := ToolResultContent toolCallId result (Some (default false isError)) None;
     name := None |}.

Definition isError_of (m : Message) : option bool :=
  match content m with
  | ToolResultContent _ _ e _ => e
  | _ => None
  end.

(** The JSON object of a content block, fields in declaration order. A
    [Uint8Array] serialises as an object keyed by its indices. *)
Definition bytes_to_json (bytes : list Z) : JSON.value :=
  JSON.Obj (imap (fun i b => (pretty i, JSON.Num b)) bytes).

Definition content_to_json (c : ContentBlock) : JSON.value :=
  match c with
  | TextContent t md =>
      JSON.Obj ([("type", JSON.Str "text"); ("text", JSON.Str t)] ++ JSON.field "metadata" md)
  | ReasoningContent t md =>
      JSON.Obj ([("type", JSON.Str "reasoning"); ("text", JSON.Str t)]
                ++ JSON.field "metadata" md)
  | FileContent mt d md =>
      JSON.Obj ([("type", JSON.Str "file"); ("mediaType", JSON.Str mt);
                 ("data", match d with
                          | DataString s => JSON.Str s
                          | DataBytes bs => bytes_to_json bs
                          end)] ++ JSON.field "metadata" md)
  | ToolCallContent id nm input md =>
      JSON.Obj ([("type", JSON.Str "tool-call"); ("toolCallId", JSON.Str id);
                 ("toolName", JSON.Str nm); ("input", JSON.Str input)]
                ++ JSON.field "metadata" md)
  | ToolResultContent id r e md =>
      JSON.Obj ([("type", JSON.Str "tool-result"); ("toolCallId", JSON.Str id);
                 ("result", r)]
                ++ JSON.field "isError" (JSON.Bool <$> e) ++ JSON.field "metadata" md)
  end.


(** ** The part of [@langchain/core] that the adapters construct and read *)

Module LangChain.

(** One element of an array-valued message content. The adapters know the
    plain string, the text block and the tool_use block; any other block
    keeps its [type], which is neither text nor tool_use, and its other
    fields. *)
Inductive ContentBlock : Type :=
| StringBlock (s : string)
| TextBlock (text : string)
| ToolUseBlock (id name : string) (input : JSON.value)
| OtherBlock (type : string) (fields : list (string * JSON.value)).

Inductive MessageContent : Type :=
| ContentString (s : string)
| ContentArray (blocks : list ContentBlock).

Definition block_to_json (b : ContentBlock) : JSON.value :=
  match b with
  | StringBlock s => JSON.Str s
  | TextBlock t => JSON.Obj [("type", JSON.Str "text"); ("text", JSON.Str t)]
  | ToolUseBlock id nm input =>
      JSON.Obj [("type", JSON.Str "tool_use"); ("id", JSON.Str id);
                ("name", JSON.Str nm); ("input", input)]
  | OtherBlock ty fields => JSON.Obj (("type", JSON.Str ty) :: fields)
  end.

Definition content_to_json (c : MessageContent) : JSON.value :=
  match c with
  | ContentString s => JSON.Str s
  | ContentArray blocks => JSON.Arr (List.map block_to_json blocks)
  end.

Record ToolCall := mkToolCall {
  id : string;
  name : string;
  args : JSON.value
}.

Record UsageMetadata := mkUsageMetadata {
  input_tokens : Z;
  output_tokens : Z;
  total_tokens : Z
}.

(** The fields given to the constructor of [AIMessage] and [AIMessageChunk];
    a field that is not given is [None]. *)
Record AIFields := mkAIFields {
  ai_content : MessageContent;
  tool_calls : option (list ToolCall);
  usage_metadata : option UsageMetadata;
  response_model : option string;
  ai_id : option string
}.

Inductive BaseMessage : Type :=
| SystemMessage (content : MessageContent)
| HumanMessage (content : MessageContent)
| AIMessage (fields : AIFields)
| ToolMessage (content : MessageContent) (tool_call_id : string)
| OtherMessage (type : string) (content : MessageContent).

(** [new AIMessage(text)] *)
Definition AIMessage_of_text (text : string) : BaseMessage :=
  AIMessage {| ai_content := ContentString text; tool_calls := None;
               usage_metadata := None; response_model := None; ai_id := None |}.

Definition _getType (m : BaseMessage) : string :=
  match m with
  | SystemMessage _ => "system"
  | HumanMessage _ => "human"
  | AIMessage _ => "ai"
  | ToolMessage _ _ => "tool"
  | OtherMessage ty _ => ty
  end.

Definition content (m : BaseMessage) : MessageContent :=
  match m with
  | SystemMessage c | HumanMessage c | ToolMessage c _ | OtherMessage _ c => c
  | AIMessage f => ai_content f
  end.

End LangChain.

(** ** types/memory.ts: the storage interface *)

(** A chat history over a store [S]. [addMessages] is optional. *)
Record ChatHistory (S : Type) := mkChatHistory {
  getMessages : Eff S (list Message);
  addMessage : Message -> Eff S unit;
  addMessages : option (list Message -> Eff S unit);
  clear : Eff S unit
}.
Arguments mkChatHistory {S}.
Arguments getMessages {S}.
Arguments addMessage {S}.
Arguments addMessages {S}.
Arguments clear {S}.

(** ** adapters/chatHistoryAdapter.ts *)

Module ChatHistoryAdapter.

(** The [switch] has a [default] case returning a human message; it is only
    reached by a role outside [MessageRole]. *)
Definition sdkMessageToLangChain (message : Message) : LangChain.BaseMessage :=
  let text :=
    match content message with
    | TextContent t _ => t
    | c => JSON.stringify (content_to_json c)
    end in
  match role message with
  | system => LangChain.SystemMessage (LangChain.ContentString text)
  | user => LangChain.HumanMessage (LangChain.ContentString text)
  | assistant => LangChain.AIMessage_of_text text
  | tool =>
      match content message with
      | ToolResultContent toolCallId result _ _ =>
          LangChain.ToolMessage
            (LangChain.ContentString
               match result with
               | JSON.Str s => s
               | r => JSON.stringify r
               end)
            toolCallId
      | _ => LangChain.AIMessage_of_text text
      end
  end.

Definition langChainMessageToSdk (message : LangChain.BaseMessage) : Message :=
  let type := LangChain._getType message in
  let role :=
    if String.eqb type "system" then system
    else if String.eqb type "human" then user
    else if String.eqb type "ai" then assistant
    else if String.eqb type "tool" then tool
    else user in
  let content :=
    match LangChain.content message with
    | LangChain.ContentString s => s
    | c => JSON.stringify (LangChain.content_to_json c)
    end in
  {| role := role; content := TextContent content None; name := None |}.

Record t (S : Type) := mk {
  chatHistory : ChatHistory S;
  addMessagesFn : list Message -> Eff S unit
}.
Arguments mk {S}.
Arguments chatHistory {S}.
Arguments addMessagesFn {S}.

(** The fallback of the constructor: one [addMessage] per message, in order,
    stopping at the first one that throws. *)
Fixpoint addEach {S} (h : ChatHistory S) (msgs : list Message) : Eff S unit :=
  match msgs with
  | [] => ret tt
  | m :: rest => _ <- addMessage h m ;; addEach h rest
  end.

Definition new {S} (chatHistory : ChatHistory S) : t S :=
  {| chatHistory := chatHistory;
     addMessagesFn :=
       match addMessages chatHistory with
       | Some f => f
       | None => addEach chatHistory
       end |}.

Definition getMessages {S} (this : t S) : Eff S (list LangChain.BaseMessage) :=
  sdkMessages <- getMessages (chatHistory this) ;;
  ret (List.map sdkMessageToLangChain sdkMessages).

Definition addMessage {S} (this : t S) (message : LangChain.BaseMessage) : Eff S unit :=
  let sdkMessage := langChainMessageToSdk message in
  addMessage (chatHistory this) sdkMessage.

Definition addUserMessage {S} (this : t S) (message : string) : Eff S unit :=
  addMessage this (LangChain.HumanMessage (LangChain.ContentString message)).

Definition addAIMessage {S} (this : t S) (message : string) : Eff S unit :=
  addMessage this (LangChain.AIMessage_of_text message).

Definition addMessages {S} (this : t S) (messages : list LangChain.BaseMessage) : Eff S unit :=
  let sdkMessages := List.map langChainMessageToSdk messages in
  addMessagesFn this sdkMessages.

Definition clear {S} (this : t S) : Eff S unit :=
  clear (chatHistory this).

(** To the provider format and back. *)
Definition roundTrip (m : Message) : Message :=
  langChainMessageToSdk (sdkMessageToLangChain m).

(** What [getMessages] gives back for a provider message that [addMessage]
    stored. *)
Definition reload (message : LangChain.BaseMessage) : LangChain.BaseMessage :=
  sdkMessageToLangChain (langChainMessageToSdk message).

End ChatHistoryAdapter.

(** ** types/tools.ts, types/results.ts, types/chatModel.ts *)

(** A tool definition. The optional [execute] callback is never called by
    the code embedded here and is left out. *)
Record Tool := mkTool {
  tool_name : string;
  tool_description : option string;
  tool_parameters : JSON.value;
  tool_strict : option bool
}.

Record ToolCall := mkToolCall {
  tc_id : string;
  tc_name : string;
  tc_arguments : JSON.value;
  tc_argumentsRaw : option string
}.

Record TokenUsage := mkTokenUsage {
  promptTokens : Z;
  completionTokens : Z;
  totalTokens : Z
}.

Inductive FinishReason :=
| fr_stop | fr_length | fr_content_filter | fr_tool_calls | fr_error | fr_other.

Record GenerateResult := mkGenerateResult {
  gr_id : option string;
  gr_text : string;
  gr_finishReason : option FinishReason;
  gr_usage : option TokenUsage;
  gr_toolCalls : option (list ToolCall);
  gr_rawResponse : option JSON.value
}.

Inductive StreamChunkType := text_delta | tool_call_delta | finish | error.

Record ToolCallDelta := mkToolCallDelta {
  tcd_id : option string;
  tcd_name : option string;
  tcd_argumentsDelta : option string
}.

Record StreamChunk := mkStreamChunk {
  sc_type : StreamChunkType;
  sc_textDelta : option string;
  sc_toolCallDelta : option ToolCallDelta;
  sc_finishReason : option string;
  sc_usage : option TokenUsage;
  sc_error : option JSON.value
}.

(** The fields of [ChatModelConfig] that the adapter's object literal can
    set, and [timeout] and [maxRetries], which it never sets. The values
    come from the call options by unchecked casts, hence [JSON.value]. *)
Record ChatModelConfig := mkChatModelConfig {
  cfg_maxTokens : option JSON.value;
  cfg_temperature : option JSON.value;
  cfg_stopSequences : option JSON.value;
  cfg_timeout : option Z;
  cfg_maxRetries : option Z;
  cfg_tools : option (list Tool)
}.

(** What an [AsyncIterable<StreamChunk>] delivers when it is consumed to its
    end: finitely many chunks, then normal completion or an error. *)
Record Stream := mkStream {
  chunks : list StreamChunk;
  failure : option Error
}.

(** The custom model of a community node, over the provider's state [P]
    (the remote service, counters, ...). The unused [withTools] is left
    out. *)
Record CustomChatModelOptions (P : Type) := mkCustomChatModelOptions {
  model_name : string;
  generate : list Message -> ChatModelConfig -> Eff P GenerateResult;
  stream : option (list Message -> ChatModelConfig -> P -> P * Stream)
}.
Arguments mkCustomChatModelOptions {P}.
Arguments model_name {P}.
Arguments generate {P}.
Arguments stream {P}.

(** ** adapters/chatModelAdapter.ts *)

Record ChatGeneration := mkChatGeneration {
  gen_text : string;
  gen_message : LangChain.BaseMessage
}.

Record LLMOutput := mkLLMOutput {
  tokenUsage : option TokenUsage;
  finishReason : option FinishReason
}.

Record ChatResult := mkChatResult {
  generations : list ChatGeneration;
  llmOutput : LLMOutput
}.

(** [new ChatGenerationChunk({ message: new AIMessageChunk(fields), text })] *)
Record ChatGenerationChunk := mkChatGenerationChunk {
  chunk_message : LangChain.AIFields;
  chunk_text : string
}.

(** What consuming the generator of [_streamResponseChunks] to its end
    shows: the chunks yielded, the tokens reported to the run manager, and
    how the generator ended. *)
Record StreamRun := mkStreamRun {
  yielded : list ChatGenerationChunk;
  newTokens : list string;
  ended : Exc unit
}.

Module ChatModelAdapter.

Definition langChainRoleToSdkRole (type : string) : MessageRole :=
  if String.eqb type "system" then system
  else if String.eqb type "human" then user
  else if String.eqb type "ai" then assistant
  else if String.eqb type "tool" then tool
  else user.

(** [Message | Message[]] *)
Inductive OneOrMany :=
| One (m : Message)
| Many (ms : list Message).

(** The body of the [for] loop over the blocks: what one block pushes. *)
Definition pushBlock (role : MessageRole) (block : LangChain.ContentBlock) : list Message :=
  match block with
  | LangChain.StringBlock s =>
      [{| role := role; content := TextContent s None; name := None |}]
  | LangChain.TextBlock t =>
      [{| role := role; content := TextContent t None; name := None |}]
  | LangChain.ToolUseBlock id nm input =>
      [{| role := assistant;
          content := ToolCallContent id nm (JSON.stringify input) None;
          name := None |}]
  | LangChain.OtherBlock _ _ => []
  end.

Fixpoint pushBlocks (role : MessageRole) (blocks : list LangChain.ContentBlock)
    (messages : list Message) : list Message :=
  match blocks with
  | [] => messages
  | block :: rest => pushBlocks role rest (messages ++ pushBlock role block)
  end.

(** The content of a [BaseMessage] is a string or an array, so the final
    "default to text" return of the source is not reached. *)
Definition convertToSdkMessage (msg : LangChain.BaseMessage) : OneOrMany :=
  let role := langChainRoleToSdkRole (LangChain._getType msg) in
  match LangChain.content msg with
  | LangChain.ContentString s =>
      One {| role := role; content := TextContent s None; name := None |}
  | LangChain.ContentArray blocks =>
      let messages := pushBlocks role blocks [] in
      match messages with
      | [] => One {| role := role; content := TextContent EmptyString None; name := None |}
      | [m] => One m
      | _ => Many messages
      end
  end.

(** [Array.prototype.flatMap]: an array result is spliced in, one level. *)
Definition flatMap {A} (f : A -> OneOrMany) (xs : list A) : list Message :=
  List.concat (List.map (fun x => match f x with One m => [m] | Many ms => ms end) xs).

Definition convertToLangChainResult (result : GenerateResult) (modelId : string) : ChatResult :=
  let aiMessage :=
    LangChain.AIMessage
      {| LangChain.ai_content := LangChain.ContentString (gr_text result);
         LangChain.tool_calls :=
           List.map (fun tc =>
                  {| LangChain.id := tc_id tc;
                     LangChain.name := tc_name tc;
                     LangChain.args := tc_arguments tc |}) <$> gr_toolCalls result;
         LangChain.usage_metadata :=
           match gr_usage result with
           | Some u =>
               Some {| LangChain.input_tokens := promptTokens u;
                       LangChain.output_tokens := completionTokens u;
                       LangChain.total_tokens := totalTokens u |}
           | None => None
           end;
         LangChain.response_model := Some modelId;
         LangChain.ai_id := gr_id result |} in
  {| generations := [{| gen_text := gr_text result; gen_message := aiMessage |}];
     llmOutput := {| tokenUsage := gr_usage result;
                     finishReason := gr_finishReason result |} |}.

Record t (P : Type) := mk {
  options : CustomChatModelOptions P;
  boundTools : list Tool
}.
Arguments mk {P}.
Arguments options {P}.
Arguments boundTools {P}.

(** The parsed call options, a [Record<string, unknown> | undefined]. *)
Abbreviation CallOptions := (option (gmap string JSON.value)).

Definition buildConfig {P} (this : t P) (opts : CallOptions) : ChatModelConfig :=
  {| cfg_maxTokens := opts ≫= (fun o => o !! "max_tokens");
     cfg_temperature := opts ≫= (fun o => o !! "temperature");
     cfg_stopSequences := opts ≫= (fun o => o !! "stop");
     cfg_timeout := None;
     cfg_maxRetries := None;
     cfg_tools := if (0 <? length (boundTools this))%nat then Some (boundTools this) else None |}.

Definition modelId {P} (this : t P) : string := model_name (options this).

Definition _llmType {P} (this : t P) : string := "sdk-custom-" ++ model_name (options this).

Definition _generate {P} (this : t P) (messages : list LangChain.BaseMessage)
    (options_ : CallOptions) : Eff P ChatResult :=
  let sdkMessages := flatMap convertToSdkMessage messages in
  let config := buildConfig this options_ in
  result <- generate (options this) sdkMessages config ;;
  ret (convertToLangChainResult result (model_name (options this))).

Definition textChunk (text : string) : ChatGenerationChunk :=
  {| chunk_message :=
       {| LangChain.ai_content := LangChain.ContentString text;
          LangChain.tool_calls := None;
          LangChain.usage_metadata := None;
          LangChain.response_model := None;
          LangChain.ai_id := None |};
     chunk_text := text |}.

(** The non-empty text of a text-delta chunk: the condition of the loop
    body ([chunk.type === 'text-delta' && chunk.textDelta]). *)
Definition deltaText (chunk : StreamChunk) : option string :=
  match sc_type chunk, sc_textDelta chunk with
  | text_delta, Some d => if String.eqb d EmptyString then None else Some d
  | _, _ => None
  end.

(** [runManager] tells whether a run manager is given. Its
    [handleLLMNewToken] is taken to resolve: a handler that rejects would
    end the generator at the chunk it was told about. *)
Definition _streamResponseChunks {P} (this : t P) (messages : list LangChain.BaseMessage)
    (options_ : CallOptions) (runManager : bool) (p : P) : P * StreamRun :=
  match stream (options this) with
  | None =>
      match _generate this messages options_ p with
      | (p', Return result) =>
          let text :=
            match generations result with
            | g :: _ => gen_text g
            | [] => EmptyString
            end in
          (p', {| yielded := [textChunk text]; newTokens := []; ended := Return tt |})
      | (p', Throw e) => (p', {| yielded := []; newTokens := []; ended := Throw e |})
      end
  | Some streamFn =>
      let sdkMessages := flatMap convertToSdkMessage messages in
      let config := buildConfig this options_ in
      let '(p', s) := streamFn sdkMessages config p in
      let deltas := omap deltaText (chunks s) in
      (p', {| yielded := List.map textChunk deltas;
              newTokens := if runManager then deltas else [];
              ended := match failure s with
                       | Some e => Throw e
                       | None => Return tt
                       end |})
  end.

(** Adapters are objects: the heap maps a reference to the adapter it
    holds. *)
Abbreviation Heap P := (gmap positive (t P)).

(** An adapter while its constructor runs: a field that has not been
    assigned yet is undefined. *)
Record UnderConstruction (P : Type) := mkUnderConstruction {
  early_options : option (CustomChatModelOptions P);
  early_boundTools : option (list Tool)
}.
Arguments mkUnderConstruction {P}.
Arguments early_options {P}.
Arguments early_boundTools {P}.

(** The TypeError of reading [name] from an undefined [options]. *)
Definition optionsUndefined : Error :=
  JsError "Cannot read properties of undefined (reading 'name')".

(** [this._llmType()] on an adapter whose constructor is still running. *)
Definition _llmType_early {P} (this : UnderConstruction P) : Exc string :=
  match early_options this with
  | Some o => Return ("sdk-custom-" ++ model_name o)
  | None => Throw optionsUndefined
  end.

(** [super({})]. The base class [BaseChatModel] of [@langchain/core] has
    the field [lc_namespace = ['langchain', 'chat_models', this._llmType()]],
    and the fields of a base class are initialised inside [super], before
    the subclass assigns any field of its own. *)
Definition super {P} (this : UnderConstruction P) : Exc (list string) :=
  match _llmType_early this with
  | Return type => Return ["langchain"; "chat_models"; type]
  | Throw e => Throw e
  end.

(** The constructor: [super({})], then [boundTools = []] and
    [this.options = options]. *)
Definition construct {P} (options : CustomChatModelOptions P) : Exc (t P) :=
  let this : UnderConstruction P :=
    {| early_options := None; early_boundTools := None |} in
  match super this with
  | Throw e => Throw e
  | Return _ => Return {| options := options; boundTools := [] |}
  end.

(** [new ChatModelAdapter(options)]: the constructed object at a fresh
    reference. *)
Definition new {P} (options : CustomChatModelOptions P) : Eff (Heap P) positive :=
  fun h =>
    match construct options with
    | Throw e => (h, Throw e)
    | Return a => let l := fresh (dom h) in (<[l := a]> h, Return l)
    end.

(** [bindTools] on the object at [this]; [None] when [this] is dangling. *)
Definition bindTools {P} (this : positive) (tools : list Tool) (h : Heap P)
    : option (Heap P * Exc positive) :=
  match h !! this with
  | None => None
  | Some self =>
      match new (options self) h with
      | (h1, Throw e) => Some (h1, Throw e)
      | (h1, Return newAdapter) =>
          match h1 !! this with
          | None => None
          | Some self1 =>
              Some (alter (fun a => {| options := options a;
                                       boundTools := boundTools self1 ++ tools |})
                          newAdapter h1,
                    Return newAdapter)
          end
      end
  end.

(** The blocks the loop of [convertToSdkMessage] pushes a message for. *)
Definition recognized (block : LangChain.ContentBlock) : bool :=
  match block with
  | LangChain.OtherBlock _ _ => false
  | _ => true
  end.

Definition toList (r : OneOrMany) : list Message :=
  match r with
  | One m => [m]
  | Many ms => ms
  end.

End ChatModelAdapter.

(** ** The console *)

Inductive ConsoleEntry :=
| console_warn (msg : string)
| console_error (msg arg : string).

Abbreviation Console := (list ConsoleEntry).

Definition log (e : ConsoleEntry) : Eff Console unit :=
  fun c => ((c ++ [e])%list, Return tt).

(** [try { body } catch { handler }] *)
Definition try_catch {S A} (body handler : Eff S A) : Eff S A :=
  fun s =>
    match body s with
    | (s', Return a) => (s', Return a)
    | (s', Throw _) => handler s'
    end.

(** ** factories/memory.ts *)

Module Memory.

Record BaseMemoryOptions (S : Type) := mkBase {
  chatHistory : ChatHistory S;
  memoryKey : option string;
  inputKey : option string;
  outputKey : option string;
  returnMessages : option bool;
  humanPrefix : option string;
  aiPrefix : option string
}.
Arguments mkBase {S}.
Arguments chatHistory {S}.
Arguments memoryKey {S}.
Arguments inputKey {S}.
Arguments outputKey {S}.
Arguments returnMessages {S}.
Arguments humanPrefix {S}.
Arguments aiPrefix {S}.

(** The discriminated union [MemoryOptions]; [unknownType] stands for an
    object whose [type] is none of the three, which only an unchecked cast
    can produce. *)
Inductive MemoryOptions (S : Type) :=
| buffer (base : BaseMemoryOptions S)
| bufferWindow (base : BaseMemoryOptions S) (k : Z)
| tokenBuffer (base : BaseMemoryOptions S) (maxTokenLimit : Z)
| unknownType (base : BaseMemoryOptions S) (type : string).
Arguments buffer {S}.
Arguments bufferWindow {S}.
Arguments tokenBuffer {S}.
Arguments unknownType {S}.

Definition base {S} (o : MemoryOptions S) : BaseMemoryOptions S :=
  match o with
  | buffer b | bufferWindow b _ | tokenBuffer b _ | unknownType b _ => b
  end.

Record BaseConfig (S : Type) := mkConfig {
  cfg_chatHistory : ChatHistoryAdapter.t S;
  cfg_memoryKey : string;
  cfg_inputKey : string;
  cfg_outputKey : string;
  cfg_returnMessages : bool;
  cfg_humanPrefix : string;
  cfg_aiPrefix : string
}.
Arguments mkConfig {S}.

(** The two memory classes of [@langchain/classic/memory] that the factory
    instantiates, with the configuration given to the constructor. *)
Inductive MemoryInstance (S : Type) :=
| BufferMemory (config : BaseConfig S)
| BufferWindowMemory (config : BaseConfig S) (k : Z).
Arguments BufferMemory {S}.
Arguments BufferWindowMemory {S}.

Definition createMemory {S} (options : MemoryOptions S) : Eff Console (MemoryInstance S) :=
  let chatHistory := ChatHistoryAdapter.new (chatHistory (base options)) in
  let baseConfig :=
    {| cfg_chatHistory := chatHistory;
       cfg_memoryKey := default "chat_history" (memoryKey (base options));
       cfg_inputKey := default "input" (inputKey (base options));
       cfg_outputKey := default "output" (outputKey (base options));
       cfg_returnMessages := default true (returnMessages (base options));
       cfg_humanPrefix := default "Human" (humanPrefix (base options));
       cfg_aiPrefix := default "AI" (aiPrefix (base options)) |} in
  match options with
  | buffer _ => ret (BufferMemory baseConfig)
  | bufferWindow _ k => ret (BufferWindowMemory baseConfig k)
  | tokenBuffer _ _ =>
      _ <- log (console_warn "TokenBufferMemory not yet fully supported, using BufferMemory") ;;
      ret (BufferMemory baseConfig)
  | unknownType _ type =>
      fun c => (c, Throw (JsError ("Unknown memory type: " ++ type)))
  end.

(** The three eviction policies of a chat memory, and the one each memory
    class of LangChain implements. *)
Inductive EvictionPolicy :=
| FullBuffer
| LastKWindow (k : Z)
| TokenBudgetTrim (maxTokenLimit : Z).

Definition policy {S} (m : MemoryInstance S) : EvictionPolicy :=
  match m with
  | BufferMemory _ => FullBuffer
  | BufferWindowMemory _ k => LastKWindow k
  end.

End Memory.

(** ** factories/chatModel.ts *)

Module ChatModel.

(** Numeric fields are integers here; the callbacks and the failed-attempt
    handler are opaque values handed over unchanged. *)
Record OpenAICompatibleModelOptions := mkOpenAIOptions {
  apiKey : string;
  model : string;
  baseUrl : option string;
  temperature : option Z;
  maxTokens : option Z;
  topP : option Z;
  frequencyPenalty : option Z;
  presencePenalty : option Z;
  stopSequences : option (list string);
  timeout : option Z;
  maxRetries : option Z;
  headers : option JSON.value;
  callbacks : option (list JSON.value);
  onFailedAttempt : option JSON.value;
  clientOptions : option (gmap string JSON.value)
}.

Inductive ChatModelOptions (P : Type) :=
| openaiCompatible (o : OpenAICompatibleModelOptions)
| custom (o : CustomChatModelOptions P)
| unknownType (type : string).
Arguments openaiCompatible {P}.
Arguments custom {P}.
Arguments unknownType {P}.

(** The fields given to [new ChatOpenAI({...})]. *)
Record ChatOpenAIFields := mkChatOpenAI {
  oa_openAIApiKey : string;
  oa_modelName : string;
  oa_temperature : option Z;
  oa_maxTokens : option Z;
  oa_topP : option Z;
  oa_frequencyPenalty : option Z;
  oa_presencePenalty : option Z;
  oa_stop : option (list string);
  oa_timeout : option Z;
  oa_maxRetries : option Z;
  oa_configuration : gmap string JSON.value;
  oa_callbacks : option (list JSON.value);
  oa_onFailedAttempt : option JSON.value
}.

Inductive ChatModelInstance (P : Type) :=
| ChatOpenAI (fields : ChatOpenAIFields)
| Adapter (adapter : ChatModelAdapter.t P).
Arguments ChatOpenAI {P}.
Arguments Adapter {P}.

(** A key whose value is undefined is absent from the map. The spread of
    [clientOptions] comes last in the literal and wins. *)
Definition configuration (o : OpenAICompatibleModelOptions) : gmap string JSON.value :=
  default ∅ (clientOptions o)
  ∪ list_to_map (JSON.field "baseURL" (JSON.Str <$> baseUrl o)
                 ++ JSON.field "defaultHeaders" (headers o)).

Definition createChatModel {P} (options : ChatModelOptions P) : Exc (ChatModelInstance P) :=
  match options with
  | openaiCompatible o =>
      Return (ChatOpenAI
        {| oa_openAIApiKey := apiKey o;
           oa_modelName := model o;
           oa_temperature := temperature o;
           oa_maxTokens := maxTokens o;
           oa_topP := topP o;
           oa_frequencyPenalty := frequencyPenalty o;
           oa_presencePenalty := presencePenalty o;
           oa_stop := stopSequences o;
           oa_timeout := timeout o;
           oa_maxRetries := maxRetries o;
           oa_configuration := configuration o;
           oa_callbacks := callbacks o;
           oa_onFailedAttempt := onFailedAttempt o |})
  | custom o =>
      match ChatModelAdapter.construct o with
      | Return adapter => Return (Adapter adapter)
      | Throw e => Throw e
      end
  | unknownType type => Throw (JsError ("Unknown chat model type: " ++ type))
  end.

End ChatModel.

(** ** utils/toolConversion.ts *)

Module ToolConversion.

(** [JSON.parse] is the runtime's: it returns the parsed value or throws a
    SyntaxError. *)
Definition parseToolArguments (JSON_parse : string -> Exc JSON.value)
    (argumentsString : string) : Eff Console JSON.value :=
  try_catch
    (fun c => (c, JSON_parse argumentsString))
    (_ <- log (console_error "Failed to parse tool arguments:" argumentsString) ;;
     ret (JSON.Obj [])).

(** [ToolChoice] of types/tools.ts and the provider argument. *)
Inductive ToolChoice :=
| choice_auto
| choice_required
| choice_none
| choice_tool (toolName : string).

Inductive Provider := openai | anthropic | google.

(** The choice as the JavaScript value it is. *)
Definition choice_value (choice : ToolChoice) : JSON.value :=
  match choice with
  | choice_auto => JSON.Str "auto"
  | choice_required => JSON.Str "required"
  | choice_none => JSON.Str "none"
  | choice_tool toolName =>
      JSON.Obj [("type", JSON.Str "tool"); ("toolName", JSON.Str toolName)]
  end.

(** The provider is one of the three, so the tests on [required] do not
    fall through; the final [return choice] is reached by a named tool for
    google only. *)
Definition toProviderToolChoice (choice : ToolChoice) (provider : Provider) : JSON.value :=
  match choice with
  | choice_auto =>
      match provider with
      | anthropic => JSON.Obj [("type", JSON.Str "auto")]
      | _ => JSON.Str "auto"
      end
  | choice_required =>
      match provider with
      | openai => JSON.Str "required"
      | anthropic => JSON.Obj [("type", JSON.Str "any")]
      | google => JSON.Str "any"
      end
  | choice_none =>
      match provider with
      | openai => JSON.Str "none"
      | anthropic =>
          JSON.Obj [("type", JSON.Str "auto"); ("disable_parallel_tool_use", JSON.Bool true)]
      | _ => JSON.Str "none"
      end
  | choice_tool toolName =>
      match provider with
      | openai =>
          JSON.Obj [("type", JSON.Str "function");
                    ("function", JSON.Obj [("name", JSON.Str toolName)])]
      | anthropic => JSON.Obj [("type", JSON.Str "tool"); ("name", JSON.Str toolName)]
      | google => choice_value choice
      end
  end.

(** The value of the first field named [k] of an object. *)
Fixpoint property (k : string) (fields : list (string * JSON.value)) : option JSON.value :=
  match fields with
  | [] => None
  | (k', v) :: rest => if String.eqb k' k then Some v else property k rest
  end.

(** A value is taken for a Zod schema when it is an object with a [_def]
    property whose [typeof] is object, which null and arrays are too. *)
Definition isZodSchema (value : JSON.value) : bool :=
  match value with
  | JSON.Obj fields =>
      match property "_def" fields with
      | Some (JSON.Obj _) | Some (JSON.Arr _) | Some JSON.Null => true
      | _ => false
      end
  | _ => false
  end.

Definition fallbackSchema : JSON.value :=
  JSON.Obj [("type", JSON.Str "object"); ("properties", JSON.Obj [])].

(** [zodToJsonSchemaLib] is the library's: it returns a schema or throws. *)
Definition zodToJsonSchema (zodToJsonSchemaLib : JSON.value -> Exc JSON.value)
    (schema : JSON.value) : JSON.value :=
  if negb (isZodSchema schema) then schema
  else
    match zodToJsonSchemaLib schema with
    | Return result => result
    | Throw _ => fallbackSchema
    end.

(** The [function] member of an OpenAI tool; its [type] is always
    [function]. *)
Record OpenAITool := mkOpenAITool {
  fn_name : string;
  fn_description : option string;
  fn_parameters : JSON.value;
  fn_strict : option bool
}.

Record AnthropicTool := mkAnthropicTool {
  an_name : string;
  an_description : option string;
  an_input_schema : JSON.value
}.

Definition toOpenAITool (zodToJsonSchemaLib : JSON.value -> Exc JSON.value)
    (tool : Tool) : OpenAITool :=
  let parameters :=
    if isZodSchema (tool_parameters tool)
    then zodToJsonSchema zodToJsonSchemaLib (tool_parameters tool)
    else tool_parameters tool in
  {| fn_name := tool_name tool;
     fn_description := tool_description tool;
     fn_parameters := parameters;
     fn_strict := tool_strict tool |}.

Definition toAnthropicTool (zodToJsonSchemaLib : JSON.value -> Exc JSON.value)
    (tool : Tool) : AnthropicTool :=
  let inputSchema :=
    if isZodSchema (tool_parameters tool)
    then zodToJsonSchema zodToJsonSchemaLib (tool_parameters tool)
    else tool_parameters tool in
  {| an_name := tool_name tool;
     an_description := tool_description tool;
     an_input_schema := inputSchema |}.

End ToolConversion.

(** ** What a consumer of the stream aggregates *)

(** The text, tool calls and usage that the yielded chunks add up to: the
    texts concatenated, the tool calls and usage records of the chunk
    messages collected in order. *)
Definition streamedText (run : StreamRun) : string :=
  String.concat EmptyString (List.map chunk_text (yielded run)).

Definition streamedToolCalls (run : StreamRun) : list LangChain.ToolCall :=
  List.concat (List.map (fun c => default [] (LangChain.tool_calls (chunk_message c)))
                 (yielded run)).

Definition streamedUsage (run : StreamRun) : list LangChain.UsageMetadata :=
  omap (fun c => LangChain.usage_metadata (chunk_message c)) (yielded run).

(** The text, tool calls and usage of a non-streaming result. *)
Definition generatedText (r : ChatResult) : string :=
  String.concat EmptyString (List.map gen_text (generations r)).

Definition generatedToolCalls (r : ChatResult) : list LangChain.ToolCall :=
  List.concat (List.map (fun g =>
    match gen_message g with
    | LangChain.AIMessage f => default [] (LangChain.tool_calls f)
    | _ => []
    end) (generations r)).

(** ** Notions used by the statements *)

(** What the message made for a recognized block of a provider message
    carries: the string or the text of the block under the role of the
    provider message, or the id, name and stringified input of a tool_use
    block under the role assistant. *)
Inductive carries (role : MessageRole) : LangChain.ContentBlock -> Message -> Prop :=
| carries_string (s : string) :
    carries role (LangChain.StringBlock s)
      {| role := role; content := TextContent s None; name := None |}
| carries_text (t : string) :
    carries role (LangChain.TextBlock t)
      {| role := role; content := TextContent t None; name := None |}
| carries_tool_use (id nm : string) (input : JSON.value) :
    carries role (LangChain.ToolUseBlock id nm input)
      {| role := assistant;
         content := ToolCallContent id nm (JSON.stringify input) None;
         name := None |}.

(** The backing history keeps a list: reading returns it and leaves the
    store alone, adding a message succeeds and puts it at the end. *)
Definition stored {S} (h : ChatHistory S) (s : S) (msgs : list Message) : Prop :=
  getMessages h s = (s, Return msgs).

Definition keepsList {S} (h : ChatHistory S) : Prop :=
  forall m s msgs, stored h s msgs ->
    exists s', addMessage h m s = (s', Return tt) /\ stored h s' (msgs ++ [m]).

Definition hasStringContent (msg : LangChain.BaseMessage) : Prop :=
  exists s, LangChain.content msg = LangChain.ContentString s.

(** A message that the loop of [convertToSdkMessage] can push for a
    provider message of type [type]. *)
Definition fromBlock (type : string) (m : Message) : Prop :=
  name m = None
  /\ ((exists t, content m = TextContent t None
                 /\ role m = ChatModelAdapter.langChainRoleToSdkRole type)
      \/ (exists id nm input, content m = ToolCallContent id nm input None
                              /\ role m = assistant)).

(** A provider tool call that stands for an SDK tool call. *)
Definition sameCall (tc : ToolCall) (lc : LangChain.ToolCall) : Prop :=
  LangChain.id lc = tc_id tc
  /\ LangChain.name lc = tc_name tc
  /\ LangChain.args lc = tc_arguments tc.

(** ** Sample data *)

Module Samples.

Definition sample_ai_message : LangChain.BaseMessage :=
  LangChain.AIMessage
    {| LangChain.ai_content :=
         LangChain.ContentArray
           [LangChain.TextBlock "Posting now";
            LangChain.OtherBlock "image_url" [];
            LangChain.ToolUseBlock "tc1" "slack_post" (JSON.Obj [("text", JSON.Str "hi")])];
       LangChain.tool_calls := None; LangChain.usage_metadata := None;
       LangChain.response_model := None; LangChain.ai_id := None |}.

Definition no_usage_result (text : string) : GenerateResult :=
  {| gr_id := None; gr_text := text; gr_finishReason := Some fr_stop;
     gr_usage := None; gr_toolCalls := None; gr_rawResponse := None |}.

(** A model that answers with one tool call and no text. *)
Definition slack_call : ToolCall :=
  {| tc_id := "tc1"; tc_name := "slack_post";
     tc_arguments := JSON.Obj [("text", JSON.Str "hi")]; tc_argumentsRaw := None |}.

Definition tool_call_result : GenerateResult :=
  {| gr_id := Some "resp-1"; gr_text := EmptyString;
     gr_finishReason := Some fr_tool_calls;
     gr_usage := Some {| promptTokens := 12; completionTokens := 7; totalTokens := 19 |};
     gr_toolCalls := Some [slack_call]; gr_rawResponse := None |}.

Definition tool_calling_model : CustomChatModelOptions unit :=
  {| model_name := "my-model";
     generate := fun _ _ p => (p, Return tool_call_result);
     stream := None |}.

(** The same model with a stream that reports the call as a tool-call
    delta and then finishes. *)
Definition tool_calling_stream : Stream :=
  {| chunks :=
       [ {| sc_type := tool_call_delta; sc_textDelta := None;
            sc_toolCallDelta := Some {| tcd_id := Some "tc1"; tcd_name := Some "slack_post";
                                        tcd_argumentsDelta := Some "{}" |};
            sc_finishReason := None; sc_usage := None; sc_error := None |};
         {| sc_type := finish; sc_textDelta := None; sc_toolCallDelta := None;
            sc_finishReason := Some "tool-calls";
            sc_usage := Some {| promptTokens := 12; completionTokens := 7; totalTokens := 19 |};
            sc_error := None |} ];
     failure := None |}.

Definition tool_calling_streaming_model : CustomChatModelOptions unit :=
  {| model_name := "my-model";
     generate := fun _ _ p => (p, Return tool_call_result);
     stream := Some (fun _ _ p => (p, tool_calling_stream)) |}.

(** A provider whose state is the number of calls received: the first call
    is rate limited, every later one answers. *)
Definition flaky_model : CustomChatModelOptions nat :=
  {| model_name := "flaky";
     generate := fun _ _ calls =>
       (S calls,
        match calls with
        | O => Throw (JsError "429 rate limit")
        | _ => Return (no_usage_result "Done")
        end);
     stream := None |}.

Definition hello : list LangChain.BaseMessage :=
  [LangChain.HumanMessage (LangChain.ContentString "Post hi to Slack")].

(** An in-memory history with room for [capacity] messages and no
    [addMessages] of its own. *)
Definition bounded_history (capacity : nat) : ChatHistory (list Message) :=
  {| getMessages := fun s => (s, Return s);
     addMessage := fun m s =>
       if (length s <? capacity)%nat then ((s ++ [m])%list, Return tt)
       else (s, Throw (JsError "quota exceeded"));
     addMessages := None;
     clear := fun _ => ([], Return tt) |}.

Definition exchange : list LangChain.BaseMessage :=
  [LangChain.HumanMessage (LangChain.ContentString "Post hi to Slack");
   LangChain.AIMessage_of_text "Done"].

Definition search_tool : Tool :=
  {| tool_name := "search"; tool_description := None;
     tool_parameters := JSON.Obj []; tool_strict := None |}.

Definition one_adapter : gmap positive (ChatModelAdapter.t unit) :=
  {[ 1%positive := ChatModelAdapter.mk tool_calling_model [] ]}.

(** A human message that holds one image block. *)
Definition image_blocks : list LangChain.ContentBlock :=
  [LangChain.OtherBlock "image_url"
     [("image_url", JSON.Obj [("url", JSON.Str "https://example.com/cat.png")])]].

Definition image_message : LangChain.BaseMessage :=
  LangChain.HumanMessage (LangChain.ContentArray image_blocks).

(** An in-memory history without a bound. *)
Definition memory_history : ChatHistory (list Message) :=
  {| getMessages := fun s => (s, Return s);
     addMessage := fun m s => ((s ++ [m])%list, Return tt);
     addMessages := None;
     clear := fun _ => ([], Return tt) |}.

(** A schema library that accepts string schemas and rejects the rest. *)
Definition string_only_lib (schema : JSON.value) : Exc JSON.value :=
  match ToolConversion.property "_def" match schema with JSON.Obj fs => fs | _ => [] end with
  | Some (JSON.Obj [("typeName", JSON.Str "ZodString")]) =>
      Return (JSON.Obj [("type", JSON.Str "string")])
  | _ => Throw (JsError "unsupported schema")
  end.

Definition zod_string : JSON.value :=
  JSON.Obj [("_def", JSON.Obj [("typeName", JSON.Str "ZodString")])].

End Samples.

(** * Properties *)

(** ** Running the definitions *)

Example stringify_tool_result :
  JSON.stringify (content_to_json (content (toolResultMessage "tc1" (JSON.Num 3) (Some true))))
  = "{" ++ JSON.quote "type" ++ ":" ++ JSON.quote "tool-result" ++ ","
        ++ JSON.quote "toolCallId" ++ ":" ++ JSON.quote "tc1" ++ ","
        ++ JSON.quote "result" ++ ":3," ++ JSON.quote "isError" ++ ":true}".
Proof. reflexivity. Qed.

Example stringify_escapes :
  JSON.stringify (JSON.Arr [JSON.Str (String (Ascii.ascii_of_nat 10) "a"); JSON.Num (-12); JSON.Null])
  = "[" ++ JSON.quote (String (Ascii.ascii_of_nat 10) "a") ++ ",-12,null]"
  /\ JSON.escape (String (Ascii.ascii_of_nat 10) "a") = String JSON.backslash "na"
  /\ JSON.escape (String (Ascii.ascii_of_nat 1) EmptyString) = String JSON.backslash "u0001".
Proof. repeat split. Qed.

Example tool_message_of_object_result :
  ChatHistoryAdapter.sdkMessageToLangChain
    (toolResultMessage "tc1" (JSON.Obj [("ok", JSON.Bool true)]) None)
  = LangChain.ToolMessage
      (LangChain.ContentString ("{" ++ JSON.quote "ok" ++ ":true}")) "tc1".
Proof. reflexivity. Qed.

(** ** Tool results (types/messages.ts, chatHistoryAdapter.ts) *)

Section ToolResults.
Import ChatHistoryAdapter.

Lemma toolResultMessage_role id r e : role (toolResultMessage id r e) = tool.
Proof. reflexivity. Qed.

(** C3, as amended. The message built by [toolResultMessage] stores the
    flag in its tool-result content block ([false] when it is omitted);
    [sdkMessageToLangChain] turns that message into a [ToolMessage] made
    of the result (a string as it is, any other value stringified) and the
    tool call id only, whatever the flag is. *)
Theorem toolResultMessage_flag_in_content_only id r e :
  content (toolResultMessage id r e)
    = ToolResultContent id r (Some (default false e)) None
  /\ sdkMessageToLangChain (toolResultMessage id r e)
    = LangChain.ToolMessage
        (LangChain.ContentString
           match r with JSON.Str s => s | _ => JSON.stringify r end) id
  /\ forall e', sdkMessageToLangChain (toolResultMessage id r e')
               = sdkMessageToLangChain (toolResultMessage id r e).
Proof.
  split; [reflexivity|].
  unfold sdkMessageToLangChain, toolResultMessage; simpl.
  split; [destruct r; reflexivity | reflexivity].
Qed.

(** C3, as stated, fails: a failed and a successful tool result with the
    same id and result are converted to the same provider message, so the
    flag cannot be read off the converted message. *)
Lemma isError_lost_in_conversion :
  isError_of (toolResultMessage "tc1" (JSON.Str "boom") (Some true)) = Some true
  /\ isError_of (toolResultMessage "tc1" (JSON.Str "boom") (Some false)) = Some false
  /\ sdkMessageToLangChain (toolResultMessage "tc1" (JSON.Str "boom") (Some true))
     = sdkMessageToLangChain (toolResultMessage "tc1" (JSON.Str "boom") (Some false)).
Proof. repeat split. Qed.

End ToolResults.

(** ** Round trip through the provider format (chatHistoryAdapter.ts) *)

Section RoundTrip.
Import ChatHistoryAdapter.

Lemma langChainMessageToSdk_content m :
  exists t, content (langChainMessageToSdk m) = TextContent t None.
Proof. unfold langChainMessageToSdk; simpl; eauto. Qed.

(** C8. A text message with role system, user or assistant comes back from
    the provider format with the same role and the same text; a text
    message with role tool comes back with the same text but as an
    assistant message, so its role is not preserved. The metadata and the
    name of the message do not come back. *)
Theorem text_message_round_trip (r : MessageRole) (t : string)
    (md : option JSON.value) (nm : option string) :
  let m' := roundTrip {| role := r; content := TextContent t md; name := nm |} in
  content m' = TextContent t None
  /\ (r = system \/ r = user \/ r = assistant -> role m' = r)
  /\ (r = tool -> role m' = assistant /\ role m' <> r).
Proof.
  destruct r; cbn; repeat split; try reflexivity; try discriminate;
    intros; intuition discriminate.
Qed.

Example tool_text_round_trip :
  roundTrip (textMessage tool "42") = textMessage assistant "42".
Proof. reflexivity. Qed.

End RoundTrip.

(** ** Provider messages to SDK messages (chatModelAdapter.ts) *)

Section ConvertToSdk.
Import ChatModelAdapter.

Lemma pushBlocks_app role blocks acc :
  pushBlocks role blocks acc = (acc ++ flat_map (pushBlock role) blocks)%list.
Proof.
  revert acc; induction blocks as [|b blocks IH]; intros acc; simpl.
  - by rewrite app_nil_r.
  - rewrite IH. by rewrite <- app_assoc.
Qed.

Lemma pushBlock_recognized role b :
  length (pushBlock role b) = if recognized b then 1%nat else 0%nat.
Proof. destruct b; reflexivity. Qed.

Lemma pushed_length role blocks :
  length (flat_map (pushBlock role) blocks) = length (List.filter recognized blocks).
Proof.
  induction blocks as [|b blocks IH]; simpl; [done|].
  rewrite length_app, pushBlock_recognized, IH.
  destruct (recognized b); reflexivity.
Qed.

Lemma pushed_filter role blocks :
  flat_map (pushBlock role) blocks
  = flat_map (pushBlock role) (List.filter recognized blocks).
Proof.
  induction blocks as [|b blocks IH]; simpl; [done|].
  destruct b; simpl; by rewrite IH.
Qed.

Lemma toList_convert_array msg blocks :
  LangChain.content msg = LangChain.ContentArray blocks ->
  let role := langChainRoleToSdkRole (LangChain._getType msg) in
  toList (convertToSdkMessage msg)
  = match flat_map (pushBlock role) blocks with
    | [] => [{| role := role; content := TextContent EmptyString None; name := None |}]
    | ms => ms
    end.
Proof.
  intros Hc; unfold convertToSdkMessage; rewrite Hc, pushBlocks_app; simpl.
  destruct (flat_map _ blocks) as [|m [|m' ms]]; reflexivity.
Qed.

(** C4, as amended. A [Message] has one [content] field holding one block.
    For a provider message whose content is an array with [n] recognized
    blocks (strings, text blocks, tool_use blocks), [convertToSdkMessage]
    yields, when [n] is at least one, exactly [n] messages, the i-th one
    carrying the i-th recognized block: the string or text under the role
    of the provider message, or the tool call under the role assistant.
    When the array has no recognized block, be it empty or not, it yields
    exactly one message holding an empty text block. *)
Theorem convertToSdkMessage_one_message_per_block
    (msg : LangChain.BaseMessage) (blocks : list LangChain.ContentBlock) :
  LangChain.content msg = LangChain.ContentArray blocks ->
  let role := langChainRoleToSdkRole (LangChain._getType msg) in
  let out := toList (convertToSdkMessage msg) in
  let rec := List.filter recognized blocks in
  (rec <> [] ->
     length out = length rec /\ Forall2 (carries role) rec out)
  /\ (rec = [] ->
     out = [{| role := role; content := TextContent EmptyString None; name := None |}])
  /\ (blocks = [] ->
     out = [{| role := role; content := TextContent EmptyString None; name := None |}]).
Proof.
  intros Hc role out rec.
  assert (Hout : out = match flat_map (pushBlock role) blocks with
                       | [] => [{| role := role; content := TextContent EmptyString None;
                                   name := None |}]
                       | ms => ms
                       end) by (apply toList_convert_array; exact Hc).
  assert (Hnil : rec = [] ->
     out = [{| role := role; content := TextContent EmptyString None; name := None |}]).
  { intros Hrec. rewrite Hout.
    assert (Hlen := pushed_length role blocks). fold rec in Hlen. rewrite Hrec in Hlen.
    destruct (flat_map _ blocks); [reflexivity | discriminate]. }
  split; [|split; [exact Hnil|]].
  - intros Hrec.
    assert (Hout' : out = flat_map (pushBlock role) rec).
    { rewrite Hout. unfold rec. rewrite <- pushed_filter.
      assert (Hlen := pushed_length role blocks). fold rec in Hlen.
      destruct (flat_map _ blocks); [|reflexivity].
      destruct rec; [congruence | discriminate]. }
    rewrite Hout'. split.
    + rewrite pushed_length. unfold rec.
      clear. induction blocks as [|b bs IH]; simpl; [done|].
      destruct (recognized b) eqn:Hb; simpl; [rewrite Hb|]; simpl; auto.
    + assert (Hall : Forall (fun b => recognized b = true) rec).
      { unfold rec. clear. induction blocks as [|b bs IH]; simpl; [constructor|].
        destruct (recognized b) eqn:Hb; [constructor|]; auto. }
      clear - Hall. induction Hall as [|b bs Hb _ IH]; simpl; [constructor|].
      destruct b; try discriminate; simpl; (constructor; [constructor | exact IH]).
  - intros ->. apply Hnil. reflexivity.
Qed.

(** C4, as stated, fails: the content of this human message is an array
    that is not empty and has no recognized block, and the conversion
    yields one message, with an empty text block, not none. *)
Lemma unrecognized_blocks_yield_one_message :
  Samples.image_blocks <> []
  /\ length (List.filter recognized Samples.image_blocks) = 0%nat
  /\ toList (convertToSdkMessage Samples.image_message) = [textMessage user EmptyString].
Proof. repeat split. discriminate. Qed.

Lemma convertToSdkMessage_one_message_per_block_witness :
  length (toList (convertToSdkMessage Samples.sample_ai_message)) = 2%nat.
Proof.
  destruct (convertToSdkMessage_one_message_per_block Samples.sample_ai_message _ eq_refl)
    as [H _].
  destruct H as [H _]; [discriminate|]. exact H.
Defined.

Example convert_sample :
  convertToSdkMessage Samples.sample_ai_message
  = Many [ {| role := assistant; content := TextContent "Posting now" None; name := None |};
           {| role := assistant;
              content := ToolCallContent "tc1" "slack_post"
                           ("{" ++ JSON.quote "text" ++ ":" ++ JSON.quote "hi" ++ "}") None;
              name := None |} ].
Proof. reflexivity. Qed.

Example convert_unrecognized_only :
  convertToSdkMessage
    (LangChain.HumanMessage (LangChain.ContentArray [LangChain.OtherBlock "image_url" []]))
  = One (textMessage user EmptyString).
Proof. reflexivity. Qed.

End ConvertToSdk.

(** ** Invocation through the adapter (chatModelAdapter.ts) *)

Section Invocation.
Import ChatModelAdapter.
Context {P : Type}.

Lemma _generate_returns (this : t P) msgs opts p p' r :
  generate (options this) (flatMap convertToSdkMessage msgs) (buildConfig this opts) p
    = (p', Return r) ->
  _generate this msgs opts p
    = (p', Return (convertToLangChainResult r (model_name (options this)))).
Proof. intros H. unfold _generate, bind. rewrite H. reflexivity. Qed.

Lemma _generate_throws (this : t P) msgs opts p p' e :
  generate (options this) (flatMap convertToSdkMessage msgs) (buildConfig this opts) p
    = (p', Throw e) ->
  _generate this msgs opts p = (p', Throw e).
Proof. intros H. unfold _generate, bind. rewrite H. reflexivity. Qed.

Lemma sameCall_map (tcs : list ToolCall) :
  Forall2 sameCall tcs
    (List.map (fun tc => {| LangChain.id := tc_id tc; LangChain.name := tc_name tc;
                            LangChain.args := tc_arguments tc |}) tcs).
Proof. induction tcs; simpl; constructor; auto. by repeat split. Qed.

(** C5. When the pluggable generate function returns a result, the
    invocation returns a chat result with exactly one generation; its text
    is the result's text, the tool calls of its message are the result's
    tool calls, one for one and in order, with the same id, name and
    arguments, and the output metadata holds the result's usage and finish
    reason unchanged. *)
Theorem generate_result_carried_over (this : t P) msgs opts p p' r :
  generate (options this) (flatMap convertToSdkMessage msgs) (buildConfig this opts) p
    = (p', Return r) ->
  exists g fields,
    _generate this msgs opts p
      = (p', Return {| generations := [g];
                       llmOutput := {| tokenUsage := gr_usage r;
                                       finishReason := gr_finishReason r |} |})
    /\ gen_text g = gr_text r
    /\ gen_message g = LangChain.AIMessage fields
    /\ LangChain.ai_content fields = LangChain.ContentString (gr_text r)
    /\ option_Forall2 (Forall2 sameCall) (gr_toolCalls r) (LangChain.tool_calls fields).
Proof.
  intros H. apply _generate_returns in H. rewrite H.
  unfold convertToLangChainResult. eexists _, _.
  split; [reflexivity|]. repeat split; simpl.
  destruct (gr_toolCalls r) as [tcs|]; simpl; constructor. apply sameCall_map.
Qed.

End Invocation.

Lemma generate_result_carried_over_witness :
  exists g fields,
    ChatModelAdapter._generate (ChatModelAdapter.mk Samples.tool_calling_model [])
      Samples.hello None tt
      = (tt, Return {| generations := [g];
                       llmOutput := {| tokenUsage := gr_usage Samples.tool_call_result;
                                       finishReason := Some fr_tool_calls |} |})
    /\ gen_text g = EmptyString
    /\ gen_message g = LangChain.AIMessage fields
    /\ LangChain.ai_content fields = LangChain.ContentString EmptyString
    /\ option_Forall2 (Forall2 sameCall) (Some [Samples.slack_call])
         (LangChain.tool_calls fields).
Proof.
  exact (generate_result_carried_over
           (ChatModelAdapter.mk Samples.tool_calling_model []) Samples.hello None tt tt
           Samples.tool_call_result eq_refl).
Defined.

(** ** Retries (factories/chatModel.ts, chatModelAdapter.ts) *)

Section Retries.
Import ChatModelAdapter ChatModel.

Lemma createChatModel_custom_throws {P} (o : CustomChatModelOptions P) :
  createChatModel (custom o) = Throw optionsUndefined.
Proof. reflexivity. Qed.

(** C6, as amended. [createChatModel] hands the configured [maxRetries] to
    the [ChatOpenAI] model it builds for the openaiCompatible variant. The
    options of the custom variant have no retry setting: an invocation of
    the adapter calls the generate function once, with a configuration
    whose [maxRetries] is not set, and an error thrown by that call is the
    outcome of the invocation, the provider being left as that one call
    left it. *)
Theorem createChatModel_retry_configuration {P} :
  (forall o : OpenAICompatibleModelOptions,
     exists f, createChatModel (P := P) (openaiCompatible o) = Return (ChatOpenAI f)
               /\ oa_maxRetries f = maxRetries o)
  /\ (forall (a : ChatModelAdapter.t P) msgs opts p,
        cfg_maxRetries (buildConfig a opts) = None
        /\ forall p' e,
             generate (options a) (flatMap convertToSdkMessage msgs) (buildConfig a opts) p
               = (p', Throw e) ->
             _generate a msgs opts p = (p', Throw e)).
Proof.
  split.
  - intros o. eexists; split; reflexivity.
  - intros a msgs opts p. split; [reflexivity|].
    intros p' e H. by apply _generate_throws.
Qed.

(** C6, as stated, fails for the custom variant: the provider is rate
    limited on its first call and would answer the second one, yet the
    invocation of an adapter around it surfaces the error after that
    single call. Nor does [createChatModel] build a model for these
    options: the adapter's constructor throws. *)
Lemma custom_model_does_not_retry :
  let a := ChatModelAdapter.mk Samples.flaky_model [] in
  _generate a Samples.hello None 0%nat = (1%nat, Throw (JsError "429 rate limit"))
  /\ (exists r, _generate a Samples.hello None 1%nat = (2%nat, Return r))
  /\ createChatModel (custom Samples.flaky_model) = Throw optionsUndefined.
Proof. repeat split. eexists; reflexivity. Qed.

End Retries.

(** ** Streaming (chatModelAdapter.ts) *)

Section Streaming.
Import ChatModelAdapter.
Context {P : Type}.

Lemma concat_single (s : string) : String.concat EmptyString [s] = s.
Proof. reflexivity. Qed.

Lemma streamedToolCalls_textChunks deltas news e :
  streamedToolCalls {| yielded := List.map textChunk deltas; newTokens := news; ended := e |}
  = [].
Proof. unfold streamedToolCalls; simpl. induction deltas; simpl; auto. Qed.

Lemma streamedUsage_textChunks deltas news e :
  streamedUsage {| yielded := List.map textChunk deltas; newTokens := news; ended := e |}
  = [].
Proof. unfold streamedUsage; simpl. induction deltas; simpl; auto. Qed.

(** C2, as amended. Without a stream function, the streaming variant
    yields exactly one chunk, whose text is the text of the non-streaming
    result. With a stream function it yields one chunk per text delta that
    is not empty, in order, so the yielded texts concatenate to the
    concatenation of those deltas. In both cases a yielded chunk is made of
    its text alone: none carries a tool call or usage. *)
Theorem stream_yields_text_only (this : t P) msgs opts rm p :
  let run := snd (_streamResponseChunks this msgs opts rm p) in
  streamedToolCalls run = [] /\ streamedUsage run = []
  /\ match stream (options this) with
     | None =>
         forall p' r,
           generate (options this) (flatMap convertToSdkMessage msgs)
             (buildConfig this opts) p = (p', Return r) ->
           yielded run = [textChunk (gr_text r)]
           /\ streamedText run = gr_text r
           /\ ended run = Return tt
     | Some streamFn =>
         let s := snd (streamFn (flatMap convertToSdkMessage msgs) (buildConfig this opts) p) in
         yielded run = List.map textChunk (omap deltaText (chunks s))
         /\ streamedText run = String.concat EmptyString (omap deltaText (chunks s))
     end.
Proof.
  unfold _streamResponseChunks.
  destruct (stream (options this)) as [streamFn|] eqn:Hs.
  - destruct (streamFn _ _ p) as [p1 s1]; simpl.
    rewrite streamedToolCalls_textChunks, streamedUsage_textChunks.
    repeat split. unfold streamedText; simpl.
    by rewrite map_map, map_id.
  - destruct (_generate this msgs opts p) as [p1 [res|e]] eqn:Hg; simpl.
    + split; [reflexivity|]. split; [reflexivity|].
      intros p' r H. apply _generate_returns in H.
      rewrite H in Hg. inversion Hg; subst. repeat split.
    + split; [reflexivity|]. split; [reflexivity|].
      intros p' r H. apply _generate_returns in H.
      rewrite H in Hg. discriminate.
Qed.

End Streaming.

(** C2, as stated, fails. The model answers with a tool call, a finish
    reason and usage. The non-streaming result carries them; the streaming
    variant yields one empty text chunk when the model has no stream
    function, and nothing at all when its stream reports the same answer,
    so no tool call, finish reason or usage reaches the consumer. *)
Lemma stream_drops_tool_calls :
  let a := ChatModelAdapter.mk Samples.tool_calling_model [] in
  let a' := ChatModelAdapter.mk Samples.tool_calling_streaming_model [] in
  (exists r, ChatModelAdapter._generate a Samples.hello None tt = (tt, Return r)
     /\ generatedToolCalls r
        = [{| LangChain.id := "tc1"; LangChain.name := "slack_post";
              LangChain.args := JSON.Obj [("text", JSON.Str "hi")] |}]
     /\ finishReason (llmOutput r) = Some fr_tool_calls
     /\ tokenUsage (llmOutput r)
        = Some {| promptTokens := 12; completionTokens := 7; totalTokens := 19 |})
  /\ yielded (snd (ChatModelAdapter._streamResponseChunks a Samples.hello None false tt))
     = [ChatModelAdapter.textChunk EmptyString]
  /\ streamedToolCalls
       (snd (ChatModelAdapter._streamResponseChunks a Samples.hello None false tt)) = []
  /\ yielded (snd (ChatModelAdapter._streamResponseChunks a' Samples.hello None false tt))
     = [].
Proof. repeat split. eexists; repeat split. Qed.

(** ** Appending to the history (chatHistoryAdapter.ts) *)

Section Appending.
Context {S : Type}.



End Appending.


(** ** The memory factory (factories/memory.ts) *)

Section MemoryFactory.
Import Memory.
Context {S : Type}.

(** C7 fails on the code: for the tokenBuffer options the factory warns
    and returns the very [BufferMemory] it returns for the buffer options,
    whatever [maxTokenLimit] is; its policy is the full buffer, not a trim
    to a token budget. *)
Theorem tokenBuffer_returns_buffer_memory (b : BaseMemoryOptions S) (maxTokenLimit : Z)
    (c : Console) :
  exists m,
    createMemory (tokenBuffer b maxTokenLimit) c
      = ((c ++ [console_warn "TokenBufferMemory not yet fully supported, using BufferMemory"])%list,
         Return m)
    /\ createMemory (buffer b) c = (c, Return m)
    /\ policy m = FullBuffer
    /\ policy m <> TokenBudgetTrim maxTokenLimit.
Proof. eexists; repeat split. discriminate. Qed.

Lemma bufferWindow_policy (b : BaseMemoryOptions S) (k : Z) (c : Console) :
  exists m, createMemory (bufferWindow b k) c = (c, Return m) /\ policy m = LastKWindow k.
Proof. eexists; split; reflexivity. Qed.

End MemoryFactory.

(** ** Parsing tool arguments (utils/toolConversion.ts) *)

Section Parsing.
Import ToolConversion.
Variable JSON_parse : string -> Exc JSON.value.

(** C9. [parseToolArguments] never throws. When the string parses, it
    returns the parsed value and logs nothing, so the catch branch is not
    entered; when parsing throws, it logs the failure and returns the
    empty object. *)
Theorem parseToolArguments_total (argumentsString : string) (c : Console) :
  exists v c',
    parseToolArguments JSON_parse argumentsString c = (c', Return v)
    /\ match JSON_parse argumentsString with
       | Return parsed => v = parsed /\ c' = c
       | Throw _ =>
           v = JSON.Obj []
           /\ c' = (c ++ [console_error "Failed to parse tool arguments:" argumentsString])%list
       end.
Proof.
  unfold parseToolArguments, try_catch.
  destruct (JSON_parse argumentsString) as [parsed|e]; simpl; eauto.
Qed.

End Parsing.

(** ** Binding tools (chatModelAdapter.ts) *)

Section BindTools.
Import ChatModelAdapter.
Context {P : Type}.

Lemma construct_throws (o : CustomChatModelOptions P) :
  construct o = Throw optionsUndefined.
Proof. reflexivity. Qed.

Lemma new_throws (o : CustomChatModelOptions P) (h : gmap positive (t P)) :
  new o h = (h, Throw optionsUndefined).
Proof. unfold new. by rewrite construct_throws. Qed.

(** C10 fails on the code. [bindTools] does leave the receiver, and every
    other adapter, as it was, but it never returns the adapter it sets out
    to build: [new ChatModelAdapter(this.options)] throws, because the
    base constructor calls [_llmType], which reads [this.options.name]
    before [this.options] is assigned. No tool list is accumulated. *)
Theorem bindTools_never_returns (h : gmap positive (t P)) (this : positive)
    (self : t P) (tools : list Tool) :
  h !! this = Some self ->
  bindTools this tools h = Some (h, Throw optionsUndefined).
Proof.
  intros Hthis. unfold bindTools. rewrite Hthis, new_throws. reflexivity.
Qed.

End BindTools.

Lemma bindTools_never_returns_witness :
  ChatModelAdapter.bindTools 1%positive [Samples.search_tool] Samples.one_adapter
  = Some (Samples.one_adapter, Throw ChatModelAdapter.optionsUndefined).
Proof.
  exact (bindTools_never_returns Samples.one_adapter 1%positive
           (ChatModelAdapter.mk Samples.tool_calling_model [])
           [Samples.search_tool] eq_refl).
Defined.

(** * Further properties of the SDK code *)

(** ** Tool choices and tool formats (utils/toolConversion.ts) *)

Section ToolFormats.
Import ToolConversion.

(** X1. For each provider, [toProviderToolChoice] sends different tool
    choices to different provider values: no two choices are confused,
    although for Anthropic both [auto] and [none] have the type auto. *)
Theorem toProviderToolChoice_distinguishes (provider : Provider) (c1 c2 : ToolChoice) :
  c1 <> c2 ->
  toProviderToolChoice c1 provider <> toProviderToolChoice c2 provider.
Proof.
  intros Hne Heq. apply Hne. clear Hne.
  destruct provider, c1, c2; simpl in Heq; try discriminate; try reflexivity;
    inversion Heq; reflexivity.
Qed.

Lemma toProviderToolChoice_distinguishes_witness :
  toProviderToolChoice choice_auto anthropic <> toProviderToolChoice choice_none anthropic
  /\ choice_auto <> choice_none.
Proof.
  split; [|discriminate].
  apply (toProviderToolChoice_distinguishes anthropic choice_auto choice_none).
  discriminate.
Defined.

(** What each provider receives: OpenAI gets the three keyword choices
    as the same bare strings and a named tool as a function object; every
    Anthropic value is an object with a type; Google gets [auto] and [none]
    as they are, [required] as the string any, and a named tool as the
    SDK's own object, not converted. *)
Theorem toProviderToolChoice_shapes (choice : ToolChoice) :
  (match choice with
   | choice_tool toolName =>
       toProviderToolChoice choice openai
       = JSON.Obj [("type", JSON.Str "function");
                   ("function", JSON.Obj [("name", JSON.Str toolName)])]
   | _ => toProviderToolChoice choice openai = choice_value choice
   end)
  /\ (exists ty rest,
        toProviderToolChoice choice anthropic = JSON.Obj (("type", JSON.Str ty) :: rest))
  /\ (match choice with
      | choice_required => toProviderToolChoice choice google = JSON.Str "any"
      | _ => toProviderToolChoice choice google = choice_value choice
      end).
Proof. destruct choice; simpl; repeat split; eauto. Qed.

Variable zodToJsonSchemaLib : JSON.value -> Exc JSON.value.

Lemma zodToJsonSchema_plain schema :
  isZodSchema schema = false -> zodToJsonSchema zodToJsonSchemaLib schema = schema.
Proof. intros H. unfold zodToJsonSchema. by rewrite H. Qed.

(** X2. [toOpenAITool] and [toAnthropicTool] describe a tool alike: the
    same name and description, and the same schema, which is the tool's
    own parameters when these are not a Zod schema and otherwise the
    library's conversion, or the empty object schema when the library
    throws. *)
Theorem tool_formats_agree (tool : Tool) :
  let o := toOpenAITool zodToJsonSchemaLib tool in
  let a := toAnthropicTool zodToJsonSchemaLib tool in
  fn_name o = tool_name tool /\ an_name a = tool_name tool
  /\ fn_description o = an_description a
  /\ fn_parameters o = an_input_schema a
  /\ fn_parameters o
     = if isZodSchema (tool_parameters tool)
       then match zodToJsonSchemaLib (tool_parameters tool) with
            | Return schema => schema
            | Throw _ => fallbackSchema
            end
       else tool_parameters tool.
Proof.
  simpl. repeat split. unfold zodToJsonSchema.
  destruct (isZodSchema (tool_parameters tool)); reflexivity.
Qed.

(** X3. Converting a schema twice gives what converting it once gives,
    provided the library never returns a value that itself looks like a
    Zod schema; the schema used when the library throws is such a value. *)
Theorem zodToJsonSchema_idempotent (schema : JSON.value) :
  (forall z r, zodToJsonSchemaLib z = Return r -> isZodSchema r = false) ->
  zodToJsonSchema zodToJsonSchemaLib (zodToJsonSchema zodToJsonSchemaLib schema)
  = zodToJsonSchema zodToJsonSchemaLib schema.
Proof.
  intros Hlib. apply zodToJsonSchema_plain.
  unfold zodToJsonSchema.
  destruct (isZodSchema schema) eqn:Hz; simpl; [|exact Hz].
  destruct (zodToJsonSchemaLib schema) as [r|e] eqn:Hr; [eauto | reflexivity].
Qed.

End ToolFormats.

Lemma string_only_lib_plain z r :
  Samples.string_only_lib z = Return r -> ToolConversion.isZodSchema r = false.
Proof.
  unfold Samples.string_only_lib. intros H.
  repeat match type of H with
         | match ?x with _ => _ end = _ => destruct x; try discriminate
         | (if ?b then _ else _) = _ => destruct b; try discriminate
         end.
  by inversion H.
Qed.

Lemma zodToJsonSchema_idempotent_witness :
  ToolConversion.zodToJsonSchema Samples.string_only_lib
    (ToolConversion.zodToJsonSchema Samples.string_only_lib Samples.zod_string)
  = JSON.Obj [("type", JSON.Str "string")].
Proof.
  exact (zodToJsonSchema_idempotent Samples.string_only_lib Samples.zod_string
           string_only_lib_plain).
Defined.

(** ** Messages through the history adapter (chatHistoryAdapter.ts) *)

Section HistoryMessages.
Import ChatHistoryAdapter.

Lemma langChainMessageToSdk_role (lm : LangChain.BaseMessage) :
  role (langChainMessageToSdk lm)
  = ChatModelAdapter.langChainRoleToSdkRole (LangChain._getType lm).
Proof. reflexivity. Qed.

(** X5. A provider message that is stored and loaded again comes back
    with string content (array content as its JSON text). System and human
    messages keep their type; an AI message comes back without its tool
    calls, usage, model and id; a tool message comes back as an AI message,
    its tool call id gone; a message of any other type comes back as a
    human message. *)
Theorem stored_message_reloaded (lm : LangChain.BaseMessage) :
  let text :=
    match LangChain.content lm with
    | LangChain.ContentString s => s
    | c => JSON.stringify (LangChain.content_to_json c)
    end in
  reload lm
  = match ChatModelAdapter.langChainRoleToSdkRole (LangChain._getType lm) with
    | system => LangChain.SystemMessage (LangChain.ContentString text)
    | user => LangChain.HumanMessage (LangChain.ContentString text)
    | assistant | tool => LangChain.AIMessage_of_text text
    end.
Proof.
  unfold reload, sdkMessageToLangChain. rewrite langChainMessageToSdk_role.
  unfold langChainMessageToSdk; simpl.
  destruct (ChatModelAdapter.langChainRoleToSdkRole _); reflexivity.
Qed.

Example tool_message_reloaded :
  reload (LangChain.ToolMessage (LangChain.ContentString "posted") "tc1")
  = LangChain.AIMessage_of_text "posted".
Proof. reflexivity. Qed.

(** X6. Neither converter from the provider format reads anything but the
    type and the content of a message: the tool calls, usage, model and id
    of an AI message and the tool call id of a tool message do not reach
    the SDK messages. *)
Theorem provider_fields_not_read (f : LangChain.AIFields)
    (calls : option (list LangChain.ToolCall)) (usage : option LangChain.UsageMetadata)
    (model id : option string) (c : LangChain.MessageContent) (id1 id2 : string) :
  let f' := {| LangChain.ai_content := LangChain.ai_content f;
               LangChain.tool_calls := calls; LangChain.usage_metadata := usage;
               LangChain.response_model := model; LangChain.ai_id := id |} in
  langChainMessageToSdk (LangChain.AIMessage f) = langChainMessageToSdk (LangChain.AIMessage f')
  /\ ChatModelAdapter.convertToSdkMessage (LangChain.AIMessage f)
     = ChatModelAdapter.convertToSdkMessage (LangChain.AIMessage f')
  /\ langChainMessageToSdk (LangChain.ToolMessage c id1)
     = langChainMessageToSdk (LangChain.ToolMessage c id2)
  /\ ChatModelAdapter.convertToSdkMessage (LangChain.ToolMessage c id1)
     = ChatModelAdapter.convertToSdkMessage (LangChain.ToolMessage c id2).
Proof. repeat split. Qed.

End HistoryMessages.

(** ** Writing and reading the history (chatHistoryAdapter.ts) *)

Section HistoryStore.
Context {S : Type}.
Implicit Types (h : ChatHistory S) (s : S).

(** [addUserMessage] stores one user text message and [addAIMessage]
    one assistant text message holding the given string: each is a single
    [addMessage] of the backing history. *)
Theorem addUserMessage_addAIMessage_store (this : ChatHistoryAdapter.t S) (text : string) :
  ChatHistoryAdapter.addUserMessage this text
    = addMessage (ChatHistoryAdapter.chatHistory this) (textMessage user text)
  /\ ChatHistoryAdapter.addAIMessage this text
    = addMessage (ChatHistoryAdapter.chatHistory this) (textMessage assistant text).
Proof. split; reflexivity. Qed.

Lemma addEach_app h (xs ys : list Message) s :
  ChatHistoryAdapter.addEach h (xs ++ ys) s
  = match ChatHistoryAdapter.addEach h xs s with
    | (s1, Return _) => ChatHistoryAdapter.addEach h ys s1
    | (s1, Throw e) => (s1, Throw e)
    end.
Proof.
  revert s; induction xs as [|x xs IH]; intros s; simpl; [reflexivity|].
  unfold bind. destruct (addMessage h x s) as [s1 [[]|e]]; [apply IH | reflexivity].
Qed.

(** X7. Over a backing history without [addMessages], appending an empty
    batch does nothing, appending one message is the adapter's
    [addMessage], and appending a batch in two parts is appending the first
    part and then, unless that failed, the second. *)
Theorem addMessages_in_parts h (xs ys : list LangChain.BaseMessage)
    (m : LangChain.BaseMessage) s :
  addMessages h = None ->
  let this := ChatHistoryAdapter.new h in
  ChatHistoryAdapter.addMessages this [] s = (s, Return tt)
  /\ ChatHistoryAdapter.addMessages this [m] s = ChatHistoryAdapter.addMessage this m s
  /\ ChatHistoryAdapter.addMessages this (xs ++ ys) s
     = match ChatHistoryAdapter.addMessages this xs s with
       | (s1, Return _) => ChatHistoryAdapter.addMessages this ys s1
       | (s1, Throw e) => (s1, Throw e)
       end.
Proof.
  intros Hnone. unfold ChatHistoryAdapter.addMessages, ChatHistoryAdapter.new; simpl.
  rewrite Hnone. split; [reflexivity|]. split.
  - unfold ChatHistoryAdapter.addMessage; simpl. unfold bind.
    destruct (addMessage h _ s) as [s1 [[]|e]]; reflexivity.
  - rewrite List.map_app. apply addEach_app.
Qed.

Lemma addEach_keepsList h (batch : list Message) s (old : list Message) :
  keepsList h -> stored h s old ->
  exists s', ChatHistoryAdapter.addEach h batch s = (s', Return tt)
             /\ stored h s' (old ++ batch).
Proof.
  intros Hk. revert s old; induction batch as [|m batch IH]; intros s old Hs; simpl.
  - exists s. by rewrite app_nil_r.
  - destruct (Hk m s old Hs) as (s1 & Hadd & Hs1).
    destruct (IH s1 _ Hs1) as (s2 & Hrest & Hs2).
    exists s2. unfold bind. rewrite Hadd. split; [exact Hrest|].
    by rewrite <- app_assoc in Hs2.
Qed.

(** X8. Over a backing history that keeps a list and has no
    [addMessages], an append succeeds, and reading through the adapter
    afterwards returns the messages that were there, converted, followed by
    the appended ones as they come back from the store, in order. *)
Theorem append_then_read h (messages : list LangChain.BaseMessage) s (old : list Message) :
  addMessages h = None -> keepsList h -> stored h s old ->
  let this := ChatHistoryAdapter.new h in
  exists s',
    ChatHistoryAdapter.addMessages this messages s = (s', Return tt)
    /\ ChatHistoryAdapter.getMessages this s'
       = (s', Return (List.map ChatHistoryAdapter.sdkMessageToLangChain old
                      ++ List.map ChatHistoryAdapter.reload messages)%list).
Proof.
  intros Hnone Hk Hs this.
  destruct (addEach_keepsList h (List.map ChatHistoryAdapter.langChainMessageToSdk messages)
              s old Hk Hs) as (s' & Hadd & Hs').
  exists s'. split.
  - unfold ChatHistoryAdapter.addMessages, this, ChatHistoryAdapter.new; simpl.
    by rewrite Hnone.
  - unfold ChatHistoryAdapter.getMessages, this, ChatHistoryAdapter.new, bind; simpl.
    rewrite Hs'. unfold ret. rewrite List.map_app, List.map_map. reflexivity.
Qed.

End HistoryStore.

Lemma addMessages_in_parts_witness :
  ChatHistoryAdapter.addMessages (ChatHistoryAdapter.new (Samples.bounded_history 1))
    ([LangChain.HumanMessage (LangChain.ContentString "Post hi to Slack")]
     ++ [LangChain.AIMessage_of_text "Done"]) []
  = ([textMessage user "Post hi to Slack"], Throw (JsError "quota exceeded")).
Proof.
  destruct (addMessages_in_parts (Samples.bounded_history 1)
              [LangChain.HumanMessage (LangChain.ContentString "Post hi to Slack")]
              [LangChain.AIMessage_of_text "Done"]
              (LangChain.AIMessage_of_text "Done") [] eq_refl) as (_ & _ & H).
  exact H.
Defined.

Lemma memory_history_keepsList : keepsList Samples.memory_history.
Proof. intros m s msgs Hs. inversion Hs; subst. eexists; split; reflexivity. Qed.

Lemma append_then_read_witness :
  exists s',
    ChatHistoryAdapter.addMessages (ChatHistoryAdapter.new Samples.memory_history)
      Samples.exchange [] = (s', Return tt)
    /\ ChatHistoryAdapter.getMessages (ChatHistoryAdapter.new Samples.memory_history) s'
       = (s', Return [LangChain.HumanMessage (LangChain.ContentString "Post hi to Slack");
                      LangChain.AIMessage_of_text "Done"]).
Proof.
  exact (append_then_read Samples.memory_history Samples.exchange [] [] eq_refl
           memory_history_keepsList eq_refl).
Defined.

(** ** Messages handed to the custom model (chatModelAdapter.ts) *)

Section ModelMessages.
Import ChatModelAdapter.

Lemma convertToSdkMessage_nonempty (msg : LangChain.BaseMessage) :
  (1 <= length (toList (convertToSdkMessage msg)))%nat.
Proof.
  unfold convertToSdkMessage.
  destruct (LangChain.content msg) as [s|blocks]; simpl; [lia|].
  destruct (pushBlocks _ blocks []) as [|m [|m' ms]]; simpl; lia.
Qed.

Lemma flatMap_cons (msg : LangChain.BaseMessage) msgs :
  flatMap convertToSdkMessage (msg :: msgs)
  = (toList (convertToSdkMessage msg) ++ flatMap convertToSdkMessage msgs)%list.
Proof. unfold flatMap; simpl. by destruct (convertToSdkMessage msg). Qed.

(** X9. The list handed to the custom model has at least one SDK message
    for every provider message, so no message is dropped; when every
    message has string content it has exactly one for each, in order, and
    it is the list the history adapter's converter gives. *)
Theorem flatMap_keeps_every_message (messages : list LangChain.BaseMessage) :
  (length messages <= length (flatMap convertToSdkMessage messages))%nat
  /\ (Forall hasStringContent messages ->
      flatMap convertToSdkMessage messages
      = List.map ChatHistoryAdapter.langChainMessageToSdk messages).
Proof.
  split.
  - induction messages as [|msg msgs IH]; [simpl; lia|].
    rewrite flatMap_cons, length_app. simpl.
    pose proof (convertToSdkMessage_nonempty msg). lia.
  - induction 1 as [|msg msgs [s Hs] _ IH]; [reflexivity|].
    rewrite flatMap_cons, IH. simpl. f_equal.
    unfold convertToSdkMessage, ChatHistoryAdapter.langChainMessageToSdk.
    rewrite Hs. reflexivity.
Qed.

Lemma pushBlock_fromBlock type b :
  Forall (fromBlock type) (pushBlock (langChainRoleToSdkRole type) b).
Proof.
  destruct b; simpl; [| | |constructor];
    (constructor; [|constructor]); (split; [reflexivity|]); simpl;
    [left | left | right]; eauto 8.
Qed.

(** X10. Every SDK message made from a provider message is unnamed and
    holds either a text block, with the role of the provider message, or a
    tool-call block, with the role assistant whatever the provider message
    was. In particular a provider tool message never yields a tool-result
    block. *)
Theorem convertToSdkMessage_blocks (msg : LangChain.BaseMessage) :
  Forall (fromBlock (LangChain._getType msg)) (toList (convertToSdkMessage msg)).
Proof.
  unfold convertToSdkMessage.
  destruct (LangChain.content msg) as [s|blocks]; simpl.
  - constructor; [|constructor]. split; [reflexivity|]. left; simpl; eauto.
  - rewrite pushBlocks_app; simpl.
    assert (H : Forall (fromBlock (LangChain._getType msg))
                  (flat_map (pushBlock (langChainRoleToSdkRole (LangChain._getType msg)))
                     blocks)).
    { induction blocks as [|b bs IH]; simpl; [constructor|].
      apply Forall_app; split; [apply pushBlock_fromBlock | exact IH]. }
    destruct (flat_map _ blocks) as [|m [|m' ms]]; simpl; [|exact H|exact H].
    constructor; [|constructor]. split; [reflexivity|]. left; simpl; eauto.
Qed.

End ModelMessages.

(** ** The configuration handed to the custom model (chatModelAdapter.ts) *)

Section ModelConfig.
Import ChatModelAdapter.
Context {P : Type}.

(** X11. The configuration is built from three call options only:
    [max_tokens], [temperature] and [stop]. Call options that agree on
    these give the same configuration, absent call options leave the three
    fields unset, and [timeout] and [maxRetries] are never set. *)
Theorem buildConfig_reads_three_options (this : t P) (o1 o2 : gmap string JSON.value) :
  o1 !! "max_tokens" = o2 !! "max_tokens" ->
  o1 !! "temperature" = o2 !! "temperature" ->
  o1 !! "stop" = o2 !! "stop" ->
  buildConfig this (Some o1) = buildConfig this (Some o2)
  /\ cfg_maxTokens (buildConfig this (Some o1)) = o1 !! "max_tokens"
  /\ cfg_stopSequences (buildConfig this (Some o1)) = o1 !! "stop"
  /\ cfg_maxTokens (buildConfig this None) = None
  /\ cfg_temperature (buildConfig this None) = None
  /\ cfg_stopSequences (buildConfig this None) = None
  /\ cfg_timeout (buildConfig this (Some o1)) = None
  /\ cfg_maxRetries (buildConfig this (Some o1)) = None.
Proof.
  intros H1 H2 H3. unfold buildConfig; simpl. rewrite H1, H2, H3. repeat split.
Qed.

Lemma buildConfig_tools (this : t P) opts :
  cfg_tools (buildConfig this opts)
  = match boundTools this with
    | [] => None
    | tools => Some tools
    end.
Proof. unfold buildConfig; simpl. by destruct (boundTools this). Qed.

End ModelConfig.

Lemma buildConfig_reads_three_options_witness :
  ChatModelAdapter.buildConfig (ChatModelAdapter.mk Samples.tool_calling_model [])
    (Some {[ "max_tokens" := JSON.Num 256; "user" := JSON.Str "ada" ]})
  = ChatModelAdapter.buildConfig (ChatModelAdapter.mk Samples.tool_calling_model [])
      (Some {[ "max_tokens" := JSON.Num 256 ]}).
Proof.
  edestruct (buildConfig_reads_three_options
               (ChatModelAdapter.mk Samples.tool_calling_model [])
               {[ "max_tokens" := JSON.Num 256; "user" := JSON.Str "ada" ]}
               {[ "max_tokens" := JSON.Num 256 ]}) as [H _];
    [vm_compute; reflexivity .. | exact H].
Defined.

(** ** What the stream yields (chatModelAdapter.ts) *)

Section StreamRuns.
Import ChatModelAdapter.
Context {P : Type}.

Lemma deltaText_nonempty (chunk : StreamChunk) (d : string) :
  deltaText chunk = Some d -> d <> EmptyString.
Proof.
  unfold deltaText. intros H.
  destruct (sc_type chunk), (sc_textDelta chunk) as [t|]; try discriminate.
  destruct (String.eqb t EmptyString) eqn:Ht; [discriminate|].
  inversion H; subst. intros ->. discriminate.
Qed.

Lemma omap_deltaText_cons (c : StreamChunk) (cs : list StreamChunk) :
  omap deltaText (c :: cs)
  = match deltaText c with
    | Some d => d :: omap deltaText cs
    | None => omap deltaText cs
    end.
Proof. reflexivity. Qed.

Lemma omap_deltaText_length (cs : list StreamChunk) :
  (length (omap deltaText cs) <= length cs)%nat.
Proof.
  induction cs as [|c cs IH]; [simpl; lia|].
  rewrite omap_deltaText_cons. destruct (deltaText c); simpl; lia.
Qed.

Lemma omap_deltaText_nonempty (cs : list StreamChunk) :
  Forall (fun d => d <> EmptyString) (omap deltaText cs).
Proof.
  induction cs as [|c cs IH]; [constructor|].
  rewrite omap_deltaText_cons.
  destruct (deltaText c) as [d|] eqn:Hd; [constructor; eauto using deltaText_nonempty|done].
Qed.

(** X14. Every yielded chunk is its text wrapped in a message chunk. With
    a stream function no yielded chunk has an empty text and there are at
    most as many of them as the stream delivered; without one, at most one
    chunk is yielded, and its text may be empty. *)
Theorem yielded_chunks_are_text (this : t P) msgs opts rm p :
  let run := (_streamResponseChunks this msgs opts rm p).2 in
  Forall (fun c => c = textChunk (chunk_text c)) (yielded run)
  /\ match stream (options this) with
     | Some streamFn =>
         let s := (streamFn (flatMap convertToSdkMessage msgs) (buildConfig this opts) p).2 in
         Forall (fun c => chunk_text c <> EmptyString) (yielded run)
         /\ (length (yielded run) <= length (chunks s))%nat
     | None => (length (yielded run) <= 1)%nat
     end.
Proof.
  unfold _streamResponseChunks.
  destruct (stream (options this)) as [streamFn|].
  - destruct (streamFn _ _ p) as [p1 s1]; simpl.
    pose proof (omap_deltaText_nonempty (chunks s1)) as Hne.
    pose proof (omap_deltaText_length (chunks s1)) as Hlen.
    rewrite length_map. split; [|split; [|exact Hlen]].
    + clear. induction (omap deltaText (chunks s1)); simpl; constructor; auto.
    + clear Hlen. induction Hne; simpl; constructor; auto.
  - destruct (_generate this msgs opts p) as [p1 [res|e]]; simpl; split;
      repeat constructor.
Qed.

End StreamRuns.

(** ** The client configuration (factories/chatModel.ts) *)

Section ClientConfiguration.
Import ChatModel.

Lemma configuration_lookup (o : OpenAICompatibleModelOptions) (k : string) :
  configuration o !! k
  = match default ∅ (clientOptions o) !! k with
    | Some v => Some v
    | None =>
        if decide (k = "baseURL") then JSON.Str <$> baseUrl o
        else if decide (k = "defaultHeaders") then headers o
        else None
    end.
Proof.
  unfold configuration. rewrite lookup_union.
  destruct (default ∅ (clientOptions o) !! k) as [v|]; simpl.
  - by destruct (list_to_map _ !! k).
  - rewrite (left_id_L None _).
    destruct (baseUrl o) as [u|], (headers o) as [hd|]; simpl;
      repeat case_decide; subst; by simplify_map_eq.
Qed.

(** X17. In the client configuration of an OpenAI-compatible model every
    entry of [clientOptions] is present as given, also under the keys
    [baseURL] and [defaultHeaders], where it replaces the model's
    [baseUrl] and [headers]; these two are used for their keys only when
    [clientOptions] has no entry there, and no other key is added. The
    remaining options are handed to the model unchanged. *)
Theorem clientOptions_take_precedence {P} (o : OpenAICompatibleModelOptions) :
  exists f,
    createChatModel (P := P) (openaiCompatible o) = Return (ChatOpenAI f)
    /\ oa_openAIApiKey f = apiKey o /\ oa_modelName f = model o
    /\ oa_stop f = stopSequences o /\ oa_timeout f = timeout o
    /\ forall k,
         oa_configuration f !! k
         = match default ∅ (clientOptions o) !! k with
           | Some v => Some v
           | None =>
               if decide (k = "baseURL") then JSON.Str <$> baseUrl o
               else if decide (k = "defaultHeaders") then headers o
               else None
           end.
Proof.
  eexists; split; [reflexivity|]. simpl. repeat split.
  intros k. apply configuration_lookup.
Qed.

End ClientConfiguration.
